(** * Phaser.Ellipse (src/geom/Ellipse.js): a shallow embedding and its properties

    JavaScript numbers are IEEE-754 binary64 values.  The embedding is written
    once over an interface of the arithmetic the source uses ([JSNum]) and is
    run on the kernel's primitive binary64 floats ([float_num]), whose
    operations round exactly as JavaScript's do.  A second instance over the
    real numbers ([real_num]) reads the same code in exact arithmetic; it is
    only used where a statement says so. *)

From Stdlib Require Import Bool List ZArith String.
From Stdlib Require Import Floats.
From Stdlib Require Import Reals Lra Lia.
Import ListNotations.

Set Implicit Arguments.
#[local] Set Warnings "-inexact-float".

(** ** Numbers *)

(** The operations and literals of the source on the type of numbers.
    [num_lt], [num_le] and [num_eq] are JavaScript's [<], [<=] and [===]
    on two numbers. *)
Class JSNum (N : Type) : Type := {
  num_0 : N;
  num_0_01 : N;
  num_0_25 : N;
  num_0_5 : N;
  num_2 : N;
  num_add : N -> N -> N;
  num_sub : N -> N -> N;
  num_mul : N -> N -> N;
  num_div : N -> N -> N;
  num_sqrt : N -> N;
  num_lt : N -> N -> bool;
  num_le : N -> N -> bool;
  num_eq : N -> N -> bool
}.

Declare Scope js_scope.
Delimit Scope js_scope with js.
Infix "+" := num_add : js_scope.
Infix "-" := num_sub : js_scope.
Infix "*" := num_mul : js_scope.
Infix "/" := num_div : js_scope.
Infix "<?" := num_lt (at level 70) : js_scope.
Infix "<=?" := num_le (at level 70) : js_scope.
Infix "===" := num_eq (at level 70) : js_scope.

(** The program's numbers: binary64, round to nearest even. *)
#[export] Instance float_num : JSNum float := {
  num_0 := 0%float;
  num_0_01 := 0.01%float;
  num_0_25 := 0.25%float;
  num_0_5 := 0.5%float;
  num_2 := 2%float;
  num_add := PrimFloat.add;
  num_sub := PrimFloat.sub;
  num_mul := PrimFloat.mul;
  num_div := PrimFloat.div;
  num_sqrt := PrimFloat.sqrt;
  num_lt := PrimFloat.ltb;
  num_le := PrimFloat.leb;
  num_eq := PrimFloat.eqb
}.

Definition Rltb (a b : R) : bool := if Rlt_dec a b then true else false.
Definition Rleb (a b : R) : bool := if Rle_dec a b then true else false.
Definition Reqb (a b : R) : bool := if Req_dec_T a b then true else false.

(** Exact arithmetic.  It has no NaN and no infinity: a division by zero and
    the square root of a negative number take the library's conventional
    values here, so this instance is read only under hypotheses that exclude
    both. *)
#[export] Instance real_num : JSNum R := {
  num_0 := 0%R;
  num_0_01 := (1 / 100)%R;
  num_0_25 := (1 / 4)%R;
  num_0_5 := (1 / 2)%R;
  num_2 := 2%R;
  num_add := Rplus;
  num_sub := Rminus;
  num_mul := Rmult;
  num_div := Rdiv;
  num_sqrt := sqrt;
  num_lt := Rltb;
  num_le := Rleb;
  num_eq := Reqb
}.

(** ** Values *)

(** The values a caller can pass where the source does not fix a type
    (the argument of the [empty] setter, [returnPoints]). *)
Inductive JSValue (N : Type) : Type :=
| JSUndefined
| JSNull
| JSBool (b : bool)
| JSNumber (n : N)
| JSString (s : string).

Arguments JSUndefined {N}.
Arguments JSNull {N}.
Arguments JSBool {N} b.
Arguments JSNumber {N} n.
Arguments JSString {N} s.

Section Values.
Context {N : Type} `{JSNum N}.
Local Open Scope js_scope.

(** A number is falsy when it is [0], [-0] or NaN (the only number that is
    not [===] to itself). *)
Definition number_truthy (n : N) : bool := negb (n === num_0) && (n === n).

(** ToBoolean, as [c ? a : b] and [||] apply it. *)
Definition truthy (v : JSValue N) : bool :=
  match v with
  | JSUndefined => false
  | JSNull => false
  | JSBool b => b
  | JSNumber n => number_truthy n
  | JSString s => negb (String.eqb s EmptyString)
  end.

(** [value === true]. *)
Definition strictly_true (v : JSValue N) : bool :=
  match v with
  | JSBool true => true
  | _ => false
  end.

(** [n || 0] on an optional numeric argument. *)
Definition or_zero (a : option N) : N :=
  match a with
  | Some n => if number_truthy n then n else num_0
  | None => num_0
  end.

End Values.

(** ** The Math object *)

(** [Math.PI], [Math.cos] and [Math.sin].  The language leaves the last two
    implementation-approximated, so they are taken as given. *)
Record MathLib (N : Type) : Type := {
  Math_PI : N;
  Math_cos : N -> N;
  Math_sin : N -> N
}.

(** The global random source: the sequence of draws still to come. *)
Record Rng (N : Type) : Type := { draws : nat -> N; cursor : nat }.

(** [Math.random()]: the next draw, and the source advanced by one. *)
Definition Math_random {N : Type} (g : Rng N) : N * Rng N :=
  (draws g (cursor g), {| draws := draws g; cursor := S (cursor g) |}).

(** ** Phaser.Point, Phaser.Rectangle and Phaser.Line, as far as Ellipse.js uses them *)

Module Point.
Record t (N : Type) : Type := mk { x : N; y : N }.
Arguments mk {N} x y.
Arguments x {N} t.
Arguments y {N} t.

(** [new Phaser.Point(x, y)], both arguments optional. *)
Definition new {N : Type} `{JSNum N} (x y : option N) : t N :=
  mk (or_zero x) (or_zero y).
Definition set_x {N : Type} (p : t N) (v : N) : t N := mk v (y p).
Definition set_y {N : Type} (p : t N) (v : N) : t N := mk (x p) v.
End Point.

Module Rectangle.
Record t (N : Type) : Type := mk { x : N; y : N; width : N; height : N }.
Arguments mk {N} x y width height.
Arguments x {N} t.
Arguments y {N} t.
Arguments width {N} t.
Arguments height {N} t.

(** [new Phaser.Rectangle(x, y, width, height)].  Rectangle.js is not among
    the sources; its constructor defaults each argument with [|| 0], as the
    constructors of Point and of Ellipse do. *)
Definition new {N : Type} `{JSNum N} (x y width height : option N) : t N :=
  mk (or_zero x) (or_zero y) (or_zero width) (or_zero height).
End Rectangle.

Module Line.
Record t (N : Type) : Type := mk { start : Point.t N; end_ : Point.t N }.
Arguments mk {N} start end_.
Arguments start {N} t.
Arguments end_ {N} t.

Section Methods.
Context {N : Type} `{JSNum N}.
Local Open Scope js_scope.

Definition num_min (a b : N) : N := if b <? a then b else a.
Definition num_max (a b : N) : N := if a <? b then b else a.

(** Modelled from the spec: [pointOnSegment(x, y, tolerance)] of the line
    type, the segment-membership test that Ellipse.js calls and Line.js (not
    among the sources) defines.  The spec describes it as a perpendicular /
    parametric distance check with a tolerance that accepts a point only on
    the finite segment: the point lies in the box spanned by the two
    endpoints, and its offset from the line through them,
    [(x - start.x) * (end.y - start.y) - (end.x - start.x) * (y - start.y)],
    is smaller than the tolerance in absolute value. *)
Definition pointOnSegment (this : t N) (x y epsilon : N) : bool :=
  let xMin := num_min (Point.x (start this)) (Point.x (end_ this)) in
  let xMax := num_max (Point.x (start this)) (Point.x (end_ this)) in
  let yMin := num_min (Point.y (start this)) (Point.y (end_ this)) in
  let yMax := num_max (Point.y (start this)) (Point.y (end_ this)) in
  let d := (x - Point.x (start this)) * (Point.y (end_ this) - Point.y (start this))
           - (Point.x (end_ this) - Point.x (start this)) * (y - Point.y (start this)) in
  (xMin <=? x) && (x <=? xMax) && (yMin <=? y) && (y <=? yMax)
  && (d <? epsilon) && (num_0 - epsilon <? d).

End Methods.
End Line.

(** ** Phaser.Ellipse *)

Module Ellipse.

Record t (N : Type) : Type := mk { x : N; y : N; width : N; height : N }.
Arguments mk {N} x y width height.
Arguments x {N} t.
Arguments y {N} t.
Arguments width {N} t.
Arguments height {N} t.

Section Methods.
Context {N : Type} `{JSNum N}.
Local Open Scope js_scope.

(** [new Phaser.Ellipse(x, y, width, height)]: each argument is optional and
    goes through [|| 0].  (The read-only [type] tag is not modelled.) *)
Definition new (x y width height : option N) : t N :=
  mk (or_zero x) (or_zero y) (or_zero width) (or_zero height).

Definition setTo (this : t N) (x y width height : N) : t N :=
  mk x y width height.

Definition getBounds (this : t N) : Rectangle.t N :=
  Rectangle.new (Some (x this - width this)) (Some (y this - height this))
    (Some (width this)) (Some (height this)).

(** Static [Phaser.Ellipse.contains(a, x, y)]. *)
Definition contains_static (a : t N) (x y : N) : bool :=
  if (width a <=? num_0) || (height a <=? num_0) then false
  else
    let normx := ((x - Ellipse.x a) / width a) - num_0_5 in
    let normy := ((y - Ellipse.y a) / height a) - num_0_5 in
    let normx := normx * normx in
    let normy := normy * normy in
    normx + normy <? num_0_25.

(** [Phaser.Ellipse.prototype.contains]. *)
Definition contains (this : t N) (x y : N) : bool := contains_static this x y.


(** [copyFrom(source)]: any object with the four fields. *)
Definition copyFrom (this source : t N) : t N :=
  setTo this (x source) (y source) (width source) (height source).

(** [copyTo(dest)]: the four fields of [dest] are overwritten. *)
Definition copyTo (this dest : t N) : t N :=
  mk (x this) (y this) (width this) (height this).

Definition clone (this : t N) (output : option (t N)) : t N :=
  match output with
  | None => new (Some (x this)) (Some (y this)) (Some (width this)) (Some (height this))
  | Some output => setTo output (x this) (y this) (width this) (height this)
  end.

(** [random(out)], with the Math object and the random source made explicit:
    the first draw is the angle, the second the radius. *)
Definition random (M : MathLib N) (this : t N) (out : option (Point.t N)) (g : Rng N)
  : Point.t N * Rng N :=
  let out := match out with None => Point.new None None | Some out => out end in
  let (u1, g) := Math_random g in
  let p := u1 * Math_PI M * num_2 in
  let (r, g) := Math_random g in
  let out := Point.set_x out (num_sqrt r * Math_cos M p) in
  let out := Point.set_y out (num_sqrt r * Math_sin M p) in
  let out := Point.set_x out (x this + (Point.x out * width this / num_2)) in
  let out := Point.set_y out (y this + (Point.y out * height this / num_2)) in
  (out, g).

(** [toString] only formats the four fields for diagnostics and is left out.
    The accessor properties follow, a getter and a setter each. *)
Definition left (this : t N) : N := x this.
Definition set_left (this : t N) (value : N) : t N :=
  mk value (y this) (width this) (height this).

Definition right (this : t N) : N := x this + width this.
Definition set_right (this : t N) (value : N) : t N :=
  if value <? x this
  then mk (x this) (y this) num_0 (height this)
  else mk (x this) (y this) (value - x this) (height this).

Definition top (this : t N) : N := y this.
Definition set_top (this : t N) (value : N) : t N :=
  mk (x this) value (width this) (height this).

Definition bottom (this : t N) : N := y this + height this.
Definition set_bottom (this : t N) (value : N) : t N :=
  if value <? y this
  then mk (x this) (y this) (width this) num_0
  else mk (x this) (y this) (width this) (value - y this).

Definition empty (this : t N) : bool :=
  (width this === num_0) || (height this === num_0).
Definition set_empty (this : t N) (value : JSValue N) : t N :=
  if strictly_true value then setTo this num_0 num_0 num_0 num_0 else this.

(** What [intersectsLine] returns: an array of points or a boolean. *)
Inductive intersection : Type :=
| Points (ps : list (Point.t N))
| Flag (b : bool).

(** The first statements of [intersectsLine], up to [p0] and [p1]. *)
Definition candidates (e : t N) (l : Line.t N) : Point.t N * Point.t N :=
  let h := x e in
  let k := y e in
  let m := (Point.y (Line.end_ l) - Point.y (Line.start l))
           / (Point.x (Line.end_ l) - Point.x (Line.start l)) in
  let n := Point.y (Line.end_ l) - (m * Point.x (Line.end_ l)) in
  let a := width e / num_2 in
  let b := height e / num_2 in
  let del := n + m * h in
  let x0 := (h * (b * b) - m * (a * a) * (n - k)
             + a * b * (num_sqrt ((a * a) * (m * m) + (b * b) - (del * del) - (k * k) + (num_2 * del * k))))
            / ((a * a) * (m * m) + (b * b)) in
  let x1 := (h * (b * b) - m * (a * a) * (n - k)
             - a * b * (num_sqrt ((a * a) * (m * m) + (b * b) - (del * del) - (k * k) + (num_2 * del * k))))
            / ((a * a) * (m * m) + (b * b)) in
  let y0 := m * x0 + n in
  let y1 := m * x1 + n in
  let p0 := Point.new (Some x0) (Some y0) in
  let p1 := Point.new (Some x1) (Some y1) in
  (p0, p1).

(** Static [Phaser.Ellipse.intersectsLine(e, l, returnPoints)].
    [pointOnSegment] is the method of that name of the line object [l]. *)
Definition intersectsLine (pointOnSegment : Line.t N -> N -> N -> N -> bool)
  (e : t N) (l : Line.t N) (returnPoints : JSValue N) : intersection :=
  let (p0, p1) := candidates e l in
  let p0Exists := pointOnSegment l (Point.x p0) (Point.y p0) num_0_01 in
  let p1Exists := pointOnSegment l (Point.x p1) (Point.y p1) num_0_01 in
  if p0Exists && p1Exists then
    if truthy returnPoints then Points [p0; p1] else Flag true
  else if p0Exists then
    if truthy returnPoints then Points [p0] else Flag true
  else if p1Exists then
    if truthy returnPoints then Points [p1] else Flag true
  else
    if truthy returnPoints then Points [] else Flag false.

End Methods.

Arguments Points {N} ps.
Arguments Flag {N} b.

End Ellipse.

(** ** The closed form of the intersection, as the specification writes it *)

Section ClosedForm.
Context {N : Type} `{JSNum N}.
Local Open Scope js_scope.

(** Slope [m] and intercept [n] of the line through the endpoints of [l]. *)
Definition slope (l : Line.t N) : N :=
  (Point.y (Line.end_ l) - Point.y (Line.start l))
  / (Point.x (Line.end_ l) - Point.x (Line.start l)).

Definition intercept (l : Line.t N) : N :=
  Point.y (Line.end_ l) - slope l * Point.x (Line.end_ l).

(** [a²m² + b² − del² − k² + 2·del·k], with [del = n + m·h]. *)
Definition discriminant (a b m n h k : N) : N :=
  let del := n + m * h in
  (a * a) * (m * m) + (b * b) - (del * del) - (k * k) + (num_2 * del * k).


(** The discriminant of an ellipse and a line: [h = e.x], [k = e.y],
    [a = e.width/2], [b = e.height/2]. *)
Definition discriminant_of (e : Ellipse.t N) (l : Line.t N) : N :=
  discriminant (Ellipse.width e / num_2) (Ellipse.height e / num_2)
    (slope l) (intercept l) (Ellipse.x e) (Ellipse.y e).

End ClosedForm.

(** ** Concrete objects of the scenarios *)

(** [new Phaser.Ellipse(0, 0, 10, 10)]. *)
Definition ellipse10 : Ellipse.t float :=
  Ellipse.new (Some 0%float) (Some 0%float) (Some 10%float) (Some 10%float).

(** The segment from (-10, 0) to (10, 0). *)
Definition hsegment : Line.t float :=
  Line.mk (Point.mk (-10)%float 0%float) (Point.mk 10%float 0%float).




(** The same ellipse (0, 0, 10, 10) and segment in exact arithmetic. *)
Definition ellipse10_exact : Ellipse.t R := Ellipse.mk 0%R 0%R 10%R 10%R.

Definition hsegment_exact : Line.t R :=
  Line.mk (Point.mk (-10)%R 0%R) (Point.mk 10%R 0%R).

(** A random source whose next two draws are [u1] and [u2]. *)
Definition upcoming (u1 u2 : float) : Rng float :=
  {| draws := fun i => match i with O => u1 | S _ => u2 end; cursor := 0 |}.

(** [new Phaser.Ellipse(-1, 0, 0, 0)]. *)
Definition ellipse_at_minus_one : Ellipse.t float :=
  Ellipse.new (Some (-1)%float) (Some 0%float) (Some 0%float) (Some 0%float).

(** ** Further objects used by the properties below *)

(** Kinds of binary64 values, read on their specification. *)
Definition SFzero_or_nan (x : spec_float) : bool :=
  match x with S754_zero _ | S754_nan => true | _ => false end.

Definition SFinf_or_nan (x : spec_float) : bool :=
  match x with S754_infinity _ | S754_nan => true | _ => false end.

Definition SFpinf_or_nan (x : spec_float) : bool :=
  match x with S754_infinity false | S754_nan => true | _ => false end.

(** The sign bit is clear, or the value is NaN. *)
Definition SFunsigned_or_nan (x : spec_float) : bool :=
  match x with
  | S754_zero s | S754_infinity s | S754_finite s _ _ => negb s
  | S754_nan => true
  end.

(** A value is a number when it is [===] to itself: every value but NaN. *)
Definition is_number (f : float) : bool := PrimFloat.eqb f f.

(** The Math object of exact arithmetic. *)
Definition real_math : MathLib R :=
  {| Math_PI := PI; Math_cos := cos; Math_sin := sin |}.

(** The left-hand side of the implicit equation of the ellipse centred on
    [(cx, cy)] with semi-axes [a] and [b], at the point [(px, py)]: below 1
    inside, 1 on the curve. *)
Definition ellipse_form (cx cy a b px py : R) : R :=
  ((px - cx) / a) * ((px - cx) / a) + ((py - cy) / b) * ((py - cy) / b).

(** The segments from (0, -10) to (0, 10) and from (-10, 20) to (10, 20). *)
Definition vsegment : Line.t float :=
  Line.mk (Point.mk 0%float (-10)%float) (Point.mk 0%float 10%float).

Definition high_segment : Line.t float :=
  Line.mk (Point.mk (-10)%float 20%float) (Point.mk 10%float 20%float).

(** [new Phaser.Ellipse(3, 4, 0, 7)]. *)
Definition flat_ellipse : Ellipse.t float :=
  Ellipse.new (Some 3%float) (Some 4%float) (Some 0%float) (Some 7%float).

(** [new Phaser.Ellipse(100, 100, 10, 10)], far from the origin, and the
    vertical segment from (100, 90) to (100, 110) that crosses it. *)
Definition far_ellipse : Ellipse.t float :=
  Ellipse.new (Some 100%float) (Some 100%float) (Some 10%float) (Some 10%float).

Definition far_vsegment : Line.t float :=
  Line.mk (Point.mk 100%float 90%float) (Point.mk 100%float 110%float).

(** [new Phaser.Ellipse(Infinity, 0, Infinity, 1)]. *)
Definition infinite_ellipse : Ellipse.t float :=
  Ellipse.new (Some infinity) (Some 0%float) (Some infinity) (Some 1%float).

(** The point (0, 0), which [new Phaser.Point] makes of two NaN. *)
Definition origin : Point.t float := Point.mk 0%float 0%float.

(** What [intersectsLine] answers when both candidates are (0, 0). *)
Definition origin_answer (accepted : bool) (v : JSValue float) : @Ellipse.intersection float :=
  if accepted
  then (if truthy v then Ellipse.Points [origin; origin] else Ellipse.Flag true)
  else (if truthy v then Ellipse.Points [] else Ellipse.Flag false).

(** A random source of exact arithmetic whose draws are all 1/4. *)
Definition quarter_draws : Rng R := {| draws := fun _ => (1 / 4)%R; cursor := 0 |}.

(** ** The rounding of binary64, read on the reals *)

(** Two to the power [e]. *)
Definition p2 (e : Z) : R := powerRZ 2 e.







(** NaN, a zero, or a value whose sign bit is clear; and the same with the
    sign bit set. *)
Definition SFnotneg (s : spec_float) : bool :=
  match s with
  | S754_nan | S754_zero _ => true
  | S754_infinity s | S754_finite s _ _ => negb s
  end.


(** Unfolds the interface's operations at the instance in use. *)
Ltac num_ops :=
  cbn [num_add num_sub num_mul num_div num_sqrt num_lt num_le num_eq
       num_0 num_0_01 num_0_25 num_0_5 num_2 float_num real_num] in *.

(** ** Facts about binary64 arithmetic *)

Section FloatFacts.
Local Open Scope float_scope.

Lemma prim_of_spec (a : float) (s : spec_float) : Prim2SF a = s -> a = SF2Prim s.
Proof. intros <-. symmetry. apply SF2Prim_Prim2SF. Qed.

(** [x - x] is [+0], or NaN when [x] is infinite or NaN. *)
Lemma sub_diag_cases (x : float) : x - x = 0 \/ x - x = nan.
Proof.
  assert (E : Prim2SF (x - x) = S754_zero false \/ Prim2SF (x - x) = S754_nan).
  { rewrite sub_spec. unfold SF64sub, SFsub.
    destruct (Prim2SF x) as [s | s | | s m e].
    - left. now destruct s.
    - right. now destruct s.
    - now right.
    - left. cbv zeta. rewrite Z.sub_diag. reflexivity. }
  destruct E as [E | E]; apply prim_of_spec in E; [left | right]; exact E.
Qed.

(** [0 / w] is a zero or NaN. *)
Lemma zero_div_cases (w : float) : 0 / w = 0 \/ 0 / w = -0 \/ 0 / w = nan.
Proof.
  assert (E : exists s, Prim2SF (0 / w) = S754_zero s \/ Prim2SF (0 / w) = S754_nan).
  { rewrite div_spec. change (Prim2SF 0) with (S754_zero false).
    unfold SF64div, SFdiv.
    destruct (Prim2SF w) as [s | s | | s m e];
      [exists false | exists s | exists false | exists s]; cbn; auto. }
  destruct E as [[|] [E | E]]; apply prim_of_spec in E; auto.
Qed.

Lemma nan_div (w : float) : nan / w = nan.
Proof.
  apply Prim2SF_inj. rewrite div_spec. reflexivity.
Qed.

(** [0 * c] is a zero or NaN. *)
Lemma zero_mul_cases (c : float) : 0 * c = 0 \/ 0 * c = -0 \/ 0 * c = nan.
Proof.
  assert (E : exists s, Prim2SF (0 * c) = S754_zero s \/ Prim2SF (0 * c) = S754_nan).
  { rewrite mul_spec. change (Prim2SF 0) with (S754_zero false).
    unfold SF64mul, SFmul.
    destruct (Prim2SF c) as [s | s | | s m e];
      [exists s | exists false | exists false | exists s]; cbn; auto. }
  destruct E as [[|] [E | E]]; apply prim_of_spec in E; auto.
Qed.

Lemma SFcompare_antisym (a b : spec_float) :
  SFcompare b a = option_map CompOpp (SFcompare a b).
Proof.
  destruct a as [s1 | s1 | | s1 m1 e1], b as [s2 | s2 | | s2 m2 e2];
    try reflexivity;
    try (destruct s1; reflexivity);
    try (destruct s2; reflexivity);
    try (destruct s1, s2; reflexivity).
  pose proof (Pos.compare_antisym m1 m2) as A. unfold Pos.compare in A.
  cbn. destruct s1, s2; try reflexivity;
    rewrite (Z.compare_antisym e1 e2);
    destruct (e1 ?= e2)%Z; try reflexivity; cbn;
    rewrite A; now destruct (Pos.compare_cont Eq m1 m2).
Qed.

Lemma SFcompare_refl (a : spec_float) : a <> S754_nan -> SFcompare a a = Some Eq.
Proof.
  destruct a as [s | s | | s m e]; intros Hn; try congruence; try now destruct s.
  cbn. rewrite Z.compare_refl.
  assert (Pos.compare_cont Eq m m = Eq) as -> by apply Pos.compare_refl.
  now destruct s.
Qed.

(** [x <= v] excludes [v < x]. *)
Lemma leb_not_ltb (x v : float) : (x <=? v) = true -> (v <? x) = false.
Proof.
  rewrite leb_spec, ltb_spec. unfold SFleb, SFltb.
  rewrite (SFcompare_antisym (Prim2SF x) (Prim2SF v)).
  destruct (SFcompare (Prim2SF x) (Prim2SF v)) as [[] | ]; cbn; congruence.
Qed.

(** A number below zero is not [=== 0]. *)
Lemma ltb_not_eqb (x v : float) : (x <? v) = true -> (x =? v) = false.
Proof.
  rewrite eqb_spec, ltb_spec. unfold SFeqb, SFltb.
  destruct (SFcompare (Prim2SF x) (Prim2SF v)) as [[] | ]; congruence.
Qed.

(** Whatever compares below [x] shows that [x] is a number, and then
    [x + 0 === x]. *)
Lemma add_zero_eqb (x v : float) : (v <? x) = true -> (x + 0 =? x) = true.
Proof.
  rewrite ltb_spec, eqb_spec, add_spec. unfold SFltb.
  change (Prim2SF 0) with (S754_zero false).
  intros Hlt.
  assert (Hn : Prim2SF x <> S754_nan).
  { intros E. rewrite E in Hlt. now destruct (Prim2SF v). }
  assert (E : SF64add (Prim2SF x) (S754_zero false) = Prim2SF x
              \/ exists s, Prim2SF x = S754_zero s).
  { destruct (Prim2SF x) as [s | s | | s m e]; eauto. }
  unfold SFeqb. destruct E as [-> | [s E]].
  - now rewrite SFcompare_refl.
  - rewrite E. now destruct s.
Qed.

End FloatFacts.

(** ** Containment *)

Section Containment.
Import Ellipse.
Local Open Scope float_scope.

(** The containment test rejects the point whose coordinates are the
    ellipse's own [x] and [y], whatever the four fields are. *)
Lemma contains_corner_float (e : t float) : contains e (x e) (y e) = false.
Proof.
  destruct e as [ex ey w h].
  unfold contains, contains_static. cbn [x y width height]. num_ops.
  destruct ((w <=? 0) || (h <=? 0)); [reflexivity | ].
  destruct (sub_diag_cases ex) as [-> | ->], (sub_diag_cases ey) as [-> | ->];
    rewrite ?nan_div;
    try (destruct (zero_div_cases w) as [-> | [-> | ->]]);
    try (destruct (zero_div_cases h) as [-> | [-> | ->]]);
    reflexivity.
Qed.

(** In exact arithmetic the centre of the framing rectangle is contained. *)
Lemma contains_centre_exact (e : t R) :
  (0 < width e)%R -> (0 < height e)%R ->
  contains e (x e + width e / 2)%R (y e + height e / 2)%R = true.
Proof.
  destruct e as [ex ey w h]. cbn [x y width height]. intros Hw Hh.
  unfold contains, contains_static. cbn [x y width height]. num_ops.
  unfold Rleb, Rltb.
  destruct (Rle_dec w 0) as [L | _]; [lra | ].
  destruct (Rle_dec h 0) as [L | _]; [lra | ]. cbn.
  replace ((ex + w / 2 - ex) / w - 1 / 2)%R with 0%R by (field; lra).
  replace ((ey + h / 2 - ey) / h - 1 / 2)%R with 0%R by (field; lra).
  destruct (Rlt_dec _ _) as [_ | L]; [reflexivity | lra].
Qed.

(** C1, as stated, fails on the ellipse (0, 0, 10, 10): its width and height
    are positive and [contains(0, 0)] returns false. *)
Lemma contains_own_xy_counterexample :
  (0 <? width ellipse10) = true /\ (0 <? height ellipse10) = true /\
  contains ellipse10 (x ellipse10) (y ellipse10) = false.
Proof. repeat split; vm_compute; reflexivity. Qed.

(** C1 (amended): [x] and [y] are the upper-left corner of the framing
    rectangle, not the centre.  For every ellipse, so for every one with
    width > 0 and height > 0, [contains(e.x, e.y)] returns false; for the
    ellipse (0, 0, 10, 10), [contains(0, 0)] returns false and
    [contains(5, 5)] returns true; and in exact arithmetic the centre of the
    framing rectangle, (x + width/2, y + height/2), is contained whenever
    width > 0 and height > 0. *)
Theorem contains_own_xy_rejected :
  (forall e : t float, contains e (x e) (y e) = false) /\
  contains ellipse10 0 0 = false /\
  contains ellipse10 5 5 = true /\
  (forall e : t R, (0 < width e)%R -> (0 < height e)%R ->
     contains e (x e + width e / 2)%R (y e + height e / 2)%R = true).
Proof.
  split; [exact contains_corner_float | ].
  split; [vm_compute; reflexivity | ].
  split; [vm_compute; reflexivity | ].
  exact contains_centre_exact.
Qed.

(** C3: [contains(a, x, y)] returns false whenever [a.width <= 0] or
    [a.height <= 0]; otherwise it returns true exactly when
    [nx*nx + ny*ny < 0.25], a strict comparison, with
    [nx = (x - a.x)/a.width - 0.5] and [ny = (y - a.y)/a.height - 0.5].
    The method [contains] is the static function on [this].  On the
    ellipse (0, 0, 10, 10) the point (0, 5) has [nx*nx + ny*ny] equal to
    0.25 and is rejected. *)
Theorem contains_static_spec (a : t float) (px py : float) :
  let nx := (px - x a) / width a - 0.5 in
  let ny := (py - y a) / height a - 0.5 in
  ((width a <=? 0) = true \/ (height a <=? 0) = true ->
     contains_static a px py = false) /\
  ((width a <=? 0) = false -> (height a <=? 0) = false ->
     (contains_static a px py = true <-> (nx * nx + ny * ny <? 0.25) = true)) /\
  contains a px py = contains_static a px py /\
  contains_static ellipse10 0 5 = false.
Proof.
  intros nx ny. unfold contains, contains_static. num_ops.
  split; [ | split; [ | split]].
  - intros [-> | ->]; [reflexivity | now rewrite orb_true_r].
  - intros -> ->. cbn [orb]. reflexivity.
  - reflexivity.
  - vm_compute. reflexivity.
Qed.

End Containment.

(** ** Random sampling *)

Section Sampling.
Import Ellipse.
Local Open Scope float_scope.

(** C2 at a failing input: on the ellipse (0, 0, 10, 10), when the radius
    draw is 0 the sampled point is not accepted by [contains], whatever the
    angle draw, the output object and the implementation of [Math.cos] and
    [Math.sin] are. *)
Theorem random_point_rejected (M : MathLib float) (out : option (Point.t float)) (u1 : float) :
  let p := fst (random M ellipse10 out (upcoming u1 0)) in
  contains ellipse10 (Point.x p) (Point.y p) = false.
Proof.
  cbv zeta. unfold random, Math_random, upcoming. cbn [draws cursor fst snd].
  cbv [Point.set_x Point.set_y Point.x Point.y]. num_ops.
  change (PrimFloat.sqrt 0) with 0.
  destruct (zero_mul_cases (Math_cos M (u1 * Math_PI M * 2))) as [-> | [-> | ->]];
    destruct (zero_mul_cases (Math_sin M (u1 * Math_PI M * 2))) as [-> | [-> | ->]];
    vm_compute; reflexivity.
Qed.

(** In exact arithmetic the same happens for every draw whose angle has a
    cosine that is not positive: the sampled point is at [x] or left of it,
    outside the framing rectangle that [contains] tests against. *)
Lemma random_left_half_rejected_exact (M : MathLib R) (e : t R)
  (out : option (Point.t R)) (g : Rng R) :
  (0 < width e)%R -> (0 < height e)%R ->
  (Math_cos M (draws g (cursor g) * Math_PI M * 2) <= 0)%R ->
  let p := fst (random M e out g) in
  contains e (Point.x p) (Point.y p) = false.
Proof.
  intros Hw Hh Hc. cbv zeta. unfold random, Math_random. cbn [draws cursor fst snd].
  cbv [Point.set_x Point.set_y Point.x Point.y]. num_ops.
  set (c := Math_cos M _) in *. set (s := Math_sin M _).
  set (r := Stdlib.Reals.R_sqrt.sqrt _).
  assert (Hr : (0 <= r)%R) by apply sqrt_pos.
  unfold contains, contains_static. num_ops. unfold Rleb, Rltb.
  destruct (Rle_dec (width e) 0) as [L | _]; [lra | ].
  destruct (Rle_dec (height e) 0) as [L | _]; [lra | ]. cbn [orb].
  set (ny := ((y e + r * s * height e / 2 - y e) / height e - 1 / 2)%R).
  replace ((x e + r * c * width e / 2 - x e) / width e - 1 / 2)%R
    with (r * c / 2 - 1 / 2)%R by (field; lra).
  destruct (Rlt_dec _ _) as [L | _]; [ | reflexivity].
  assert (Hrc : (r * c <= 0)%R) by nra.
  assert (Hny : (0 <= ny * ny)%R) by nra.
  nra.
Qed.

End Sampling.

(** ** Accessor properties *)

Section Accessors.
Import Ellipse.
Local Open Scope float_scope.

Lemma set_right_float (e : t float) (v : float) :
  ((x e <=? v) = true ->
     width (set_right e v) = v - x e /\ right (set_right e v) = x e + (v - x e)) /\
  ((v <? x e) = true ->
     width (set_right e v) = 0 /\ (right (set_right e v) =? x e) = true).
Proof.
  unfold set_right, right. num_ops. split.
  - intros L. rewrite (leb_not_ltb L). cbn [x width]. split; reflexivity.
  - intros L. rewrite L. cbn [x width]. split; [reflexivity | ].
    exact (add_zero_eqb L).
Qed.

Lemma set_bottom_float (e : t float) (v : float) :
  ((y e <=? v) = true ->
     height (set_bottom e v) = v - y e /\ bottom (set_bottom e v) = y e + (v - y e)) /\
  ((v <? y e) = true ->
     height (set_bottom e v) = 0 /\ (bottom (set_bottom e v) =? y e) = true).
Proof.
  unfold set_bottom, bottom. num_ops. split.
  - intros L. rewrite (leb_not_ltb L). cbn [y height]. split; reflexivity.
  - intros L. rewrite L. cbn [y height]. split; [reflexivity | ].
    exact (add_zero_eqb L).
Qed.

Lemma set_right_exact (e : t R) (v : R) :
  ((x e <= v)%R -> width (set_right e v) = (v - x e)%R /\ right (set_right e v) = v) /\
  ((v < x e)%R -> width (set_right e v) = 0%R /\ right (set_right e v) = x e).
Proof.
  unfold set_right, right. num_ops. unfold Rltb.
  split; intros L; destruct (Rlt_dec v (x e)) as [L' | L'];
    try lra; cbn [x width]; split; try reflexivity; ring.
Qed.

Lemma set_bottom_exact (e : t R) (v : R) :
  ((y e <= v)%R -> height (set_bottom e v) = (v - y e)%R /\ bottom (set_bottom e v) = v) /\
  ((v < y e)%R -> height (set_bottom e v) = 0%R /\ bottom (set_bottom e v) = y e).
Proof.
  unfold set_bottom, bottom. num_ops. unfold Rltb.
  split; intros L; destruct (Rlt_dec v (y e)) as [L' | L'];
    try lra; cbn [y height]; split; try reflexivity; ring.
Qed.

(** C6, as stated, fails on the ellipse (-1, 0, 0, 0): after [right = 0.1],
    a value above [x], the width is [0.1 - (-1)], which rounds to 1.1, and
    [right] reads [-1 + 1.1 = 0.10000000000000009], not 0.1. *)
Lemma set_right_roundtrip_counterexample :
  (x ellipse_at_minus_one <=? 0.1) = true /\
  right (set_right ellipse_at_minus_one 0.1) = 0.10000000000000009 /\
  (right (set_right ellipse_at_minus_one 0.1) =? 0.1) = false.
Proof. repeat split; vm_compute; reflexivity. Qed.

(** C6 (amended): after [e.right = v], if [v >= e.x] then [e.width] is the
    double [v - e.x] and [e.right] reads [e.x + (v - e.x)], which is [v] in
    exact arithmetic and can differ from [v] by rounding in doubles; if
    [v < e.x] then [e.width] is 0 and [e.right] reads [e.x].  The same holds
    for [bottom] with [y] and [height]. *)
Theorem set_right_bottom_spec :
  (forall (e : t float) (v : float),
     ((x e <=? v) = true ->
        width (set_right e v) = v - x e /\ right (set_right e v) = x e + (v - x e)) /\
     ((v <? x e) = true ->
        width (set_right e v) = 0 /\ (right (set_right e v) =? x e) = true)) /\
  (forall (e : t float) (v : float),
     ((y e <=? v) = true ->
        height (set_bottom e v) = v - y e /\ bottom (set_bottom e v) = y e + (v - y e)) /\
     ((v <? y e) = true ->
        height (set_bottom e v) = 0 /\ (bottom (set_bottom e v) =? y e) = true)) /\
  (forall (e : t R) (v : R),
     ((x e <= v)%R -> width (set_right e v) = (v - x e)%R /\ right (set_right e v) = v) /\
     ((v < x e)%R -> width (set_right e v) = 0%R /\ right (set_right e v) = x e)) /\
  (forall (e : t R) (v : R),
     ((y e <= v)%R -> height (set_bottom e v) = (v - y e)%R /\ bottom (set_bottom e v) = v) /\
     ((v < y e)%R -> height (set_bottom e v) = 0%R /\ bottom (set_bottom e v) = y e)).
Proof.
  split; [exact set_right_float | ].
  split; [exact set_bottom_float | ].
  split; [exact set_right_exact | exact set_bottom_exact].
Qed.

(** C7: [empty] reads true exactly when [width === 0] or [height === 0]; a
    negative field is not zero, so a negative width beside a non-zero height
    (and the other way round) reads false; and [empty = true] sets [x], [y],
    [width] and [height] to 0. *)
Theorem empty_spec (e : t float) :
  (empty e = true <-> (width e =? 0) = true \/ (height e =? 0) = true) /\
  ((width e <? 0) = true -> (height e =? 0) = false -> empty e = false) /\
  ((height e <? 0) = true -> (width e =? 0) = false -> empty e = false) /\
  set_empty e (JSBool true) = mk 0 0 0 0.
Proof.
  unfold empty, set_empty, setTo. num_ops. cbn [strictly_true].
  repeat split.
  - apply orb_true_iff.
  - apply orb_true_iff.
  - intros Hw Hh. now rewrite (ltb_not_eqb Hw), Hh.
  - intros Hh Hw. now rewrite (ltb_not_eqb Hh), Hw.
Qed.

(** C9: assigning to [empty] any value other than [true] leaves the four
    fields as they were. *)
Theorem set_empty_other_values (e : t float) (v : JSValue float) :
  v <> JSBool true -> set_empty e v = e.
Proof.
  intros Hv. unfold set_empty.
  destruct v as [ | | [ | ] | n | s]; cbn [strictly_true]; try reflexivity.
  now elim Hv.
Qed.

Lemma set_empty_false_witness :
  @JSBool float false <> JSBool true /\
  set_empty ellipse10 (JSBool false) = ellipse10.
Proof.
  split; [discriminate | apply set_empty_other_values; discriminate].
Defined.

End Accessors.

(** ** Line intersection *)

Section Intersection.
Import Ellipse.

Section Contract.
Local Open Scope float_scope.

(** C5: with [returnPoints] true, [intersectsLine] returns the candidates
    that pass [pointOnSegment] with tolerance 0.01, in the order [p0, p1]
    (so 0, 1 or 2 points); with [returnPoints] false or absent it returns
    the boolean saying whether at least one candidate passes.  For the
    ellipse (0, 0, 10, 10) and the segment from (-10, 0) to (10, 0) the
    candidates are (5, 0) and (-5, 0), [pointOnSegment] accepts both, and
    the two points are returned in that order. *)
Theorem intersectsLine_return_contract :
  (forall (pointOnSegment : Line.t float -> float -> float -> float -> bool)
          (e : t float) (l : Line.t float),
     let p0 := fst (candidates e l) in
     let p1 := snd (candidates e l) in
     let accepted := fun p => pointOnSegment l (Point.x p) (Point.y p) 0.01 in
     intersectsLine pointOnSegment e l (JSBool true) = Points (filter accepted [p0; p1]) /\
     intersectsLine pointOnSegment e l (JSBool false) = Flag (existsb accepted [p0; p1]) /\
     intersectsLine pointOnSegment e l JSUndefined = Flag (existsb accepted [p0; p1]) /\
     (List.length (filter accepted [p0; p1]) <= 2)%nat) /\
  candidates ellipse10 hsegment = (Point.mk 5 0, Point.mk (-5) 0) /\
  intersectsLine Line.pointOnSegment ellipse10 hsegment (JSBool true)
  = Points [Point.mk 5 0; Point.mk (-5) 0].
Proof.
  split; [ | split; vm_compute; reflexivity].
  intros pos e l. cbv zeta. unfold intersectsLine.
  destruct (candidates e l) as [p0 p1]. cbn [fst snd filter existsb truthy]. num_ops.
  destruct (pos l (Point.x p0) (Point.y p0) 0.01), (pos l (Point.x p1) (Point.y p1) 0.01);
    cbn; repeat split; auto.
Qed.

End Contract.

Section Order.
Local Open Scope R_scope.

(** In exact arithmetic [v || 0] is [v]. *)
Lemma or_zero_exact (n : R) : or_zero (Some n) = n.
Proof.
  unfold or_zero, number_truthy. num_ops. unfold Reqb.
  destruct (Req_dec_T n 0) as [-> | _]; [reflexivity | ].
  destruct (Req_dec_T n n) as [_ | F]; [reflexivity | now elim F].
Qed.

Lemma candidates_exact_points (e : t R) (l : Line.t R) :
  let m := slope l in
  let n := intercept l in
  let a := width e / 2 in
  let b := height e / 2 in
  let p := x e * (b * b) - m * (a * a) * (n - y e) in
  let s := a * b * sqrt (discriminant_of e l) in
  let d := (a * a) * (m * m) + (b * b) in
  candidates e l
  = (Point.mk ((p + s) / d) (m * ((p + s) / d) + n),
     Point.mk ((p - s) / d) (m * ((p - s) / d) + n)).
Proof.
  cbv zeta. unfold candidates, Point.new. cbv zeta. rewrite !or_zero_exact. reflexivity.
Qed.

Lemma candidates_exact (e : t R) (l : Line.t R) :
  let m := slope l in
  let n := intercept l in
  let a := width e / 2 in
  let b := height e / 2 in
  let p := x e * (b * b) - m * (a * a) * (n - y e) in
  let s := a * b * sqrt (discriminant_of e l) in
  let d := (a * a) * (m * m) + (b * b) in
  Point.x (fst (candidates e l)) = (p + s) / d /\
  Point.x (snd (candidates e l)) = (p - s) / d.
Proof. cbv zeta. rewrite candidates_exact_points. split; reflexivity. Qed.

(** The closed form solves the equations it was derived from: a number [X]
    given by it, with either sign [sg] before the square root [r] of the
    discriminant, satisfies the ellipse's equation along [y = m·x + n]. *)
Lemma root_on_ellipse (a b m n h k r sg X : R) :
  0 < a -> 0 < b ->
  sg * sg = 1 ->
  r * r = discriminant a b m n h k ->
  X = (h * (b * b) - m * (a * a) * (n - k) + sg * (a * b * r)) / (a * a * (m * m) + b * b) ->
  b * b * ((X - h) * (X - h)) + a * a * ((m * X + n - k) * (m * X + n - k))
  = a * a * (b * b).
Proof.
  unfold discriminant. num_ops. intros Ha Hb Hsg Hr HX.
  set (d := a * a * (m * m) + b * b) in *.
  set (u := n + m * h - k).
  assert (Hd : d <> 0) by (unfold d; nra).
  assert (HA : d * (X - h) = sg * (a * b * r) - m * (a * a) * u).
  { rewrite HX. unfold u. field_simplify; [ | exact Hd]. unfold d. field. }
  assert (HB : d * (m * X + n - k) = b * b * u + sg * (m * (a * b * r))).
  { rewrite HX. unfold u. field_simplify; [ | exact Hd]. unfold d. field. }
  assert (Hr' : r * r = d - u * u) by (rewrite Hr; unfold d, u; ring).
  apply (Rmult_eq_reg_l (d * d)); [ | nra].
  replace (d * d * (b * b * ((X - h) * (X - h))
                    + a * a * ((m * X + n - k) * (m * X + n - k))))
    with (b * b * ((d * (X - h)) * (d * (X - h)))
          + a * a * ((d * (m * X + n - k)) * (d * (m * X + n - k)))) by ring.
  rewrite HA, HB.
  replace (b * b * ((sg * (a * b * r) - m * (a * a) * u) * (sg * (a * b * r) - m * (a * a) * u))
           + a * a * ((b * b * u + sg * (m * (a * b * r))) * (b * b * u + sg * (m * (a * b * r)))))
    with (a * a * (b * b) * d * ((sg * sg) * (r * r) + u * u)) by (unfold d; ring).
  rewrite Hsg, Hr'. ring.
Qed.

(** In exact arithmetic both candidates lie on the ellipse centred on
    [(e.x, e.y)] with semi-axes [e.width/2] and [e.height/2], and on the line
    [y = m·x + n]. *)
Lemma candidates_on_ellipse_exact (e : t R) (l : Line.t R) (p : Point.t R) :
  0 < width e -> 0 < height e -> 0 <= discriminant_of e l ->
  p = fst (candidates e l) \/ p = snd (candidates e l) ->
  let a := width e / 2 in
  let b := height e / 2 in
  b * b * ((Point.x p - x e) * (Point.x p - x e))
  + a * a * ((Point.y p - y e) * (Point.y p - y e)) = a * a * (b * b)
  /\ Point.y p = slope l * Point.x p + intercept l.
Proof.
  intros Hw Hh Hd Hp a b.
  assert (Hr : sqrt (discriminant_of e l) * sqrt (discriminant_of e l)
               = discriminant a b (slope l) (intercept l) (x e) (y e))
    by (apply sqrt_sqrt; exact Hd).
  assert (Ha : 0 < a) by (unfold a; lra).
  assert (Hb : 0 < b) by (unfold b; lra).
  destruct (candidates_exact e l) as [E0 E1].
  assert (Hy : Point.y p = slope l * Point.x p + intercept l)
    by (destruct Hp as [-> | ->]; rewrite candidates_exact_points; reflexivity).
  split; [ | exact Hy]. rewrite Hy.
  destruct Hp as [-> | ->].
  - apply (@root_on_ellipse a b (slope l) (intercept l) (x e) (y e)
             (sqrt (discriminant_of e l)) 1); auto; [ring | ].
    rewrite E0. fold a b. f_equal. ring.
  - apply (@root_on_ellipse a b (slope l) (intercept l) (x e) (y e)
             (sqrt (discriminant_of e l)) (-1)); auto; [ring | ].
    rewrite E1. fold a b. f_equal. ring.
Qed.

End Order.
End Intersection.

(** ** More facts about binary64 arithmetic *)

Section Kinds.
Local Open Scope float_scope.

(** Rewrites the arithmetic of the goal to its specification. *)
Ltac to_spec :=
  rewrite ?add_spec, ?sub_spec, ?mul_spec, ?div_spec, ?sqrt_spec;
  unfold SF64add, SF64sub, SF64mul, SF64div, SF64sqrt.

Lemma is_nan_eq (x : float) : Prim2SF x = S754_nan -> x = nan.
Proof. intros E. apply Prim2SF_inj. exact E. Qed.

(** Rounding keeps the sign it is given. *)
Lemma binary_round_aux_sign (sx : bool) (mx ex : Z) (lx : location) :
  match binary_round_aux prec emax sx mx ex lx with
  | S754_zero s | S754_infinity s | S754_finite s _ _ => s = sx
  | S754_nan => True
  end.
Proof.
  unfold binary_round_aux.
  destruct (shr_fexp prec emax mx ex lx) as [mrs e'].
  destruct (shr_fexp prec emax _ e' loc_Exact) as [mrs' e''].
  destruct (shr_m mrs'); [reflexivity | | exact I].
  destruct (e'' <=? emax - prec)%Z; reflexivity.
Qed.

(** NaN propagates through the arithmetic. *)
Lemma nan_add_l y : nan + y = nan.
Proof. apply is_nan_eq. to_spec. reflexivity. Qed.
Lemma nan_add_r x : x + nan = nan.
Proof. apply is_nan_eq. to_spec. change (Prim2SF nan) with S754_nan. now destruct (Prim2SF x). Qed.
Lemma nan_sub_l y : nan - y = nan.
Proof. apply is_nan_eq. to_spec. reflexivity. Qed.
Lemma nan_sub_r x : x - nan = nan.
Proof. apply is_nan_eq. to_spec. change (Prim2SF nan) with S754_nan. now destruct (Prim2SF x). Qed.
Lemma nan_mul_l y : nan * y = nan.
Proof. apply is_nan_eq. to_spec. reflexivity. Qed.
Lemma nan_mul_r x : x * nan = nan.
Proof. apply is_nan_eq. to_spec. change (Prim2SF nan) with S754_nan. now destruct (Prim2SF x). Qed.
Lemma nan_div_r x : x / nan = nan.
Proof. apply is_nan_eq. to_spec. change (Prim2SF nan) with S754_nan. now destruct (Prim2SF x). Qed.


Lemma nan_sqrt : PrimFloat.sqrt nan = nan.
Proof. reflexivity. Qed.

(** The difference of two [===] values is a zero, or NaN. *)
Lemma eqb_sub_zero_or_nan a b :
  (a =? b) = true -> SFzero_or_nan (Prim2SF (b - a)) = true.
Proof.
  rewrite eqb_spec. to_spec. unfold SFeqb.
  destruct (Prim2SF a) as [s1 | s1 | | s1 m1 e1], (Prim2SF b) as [s2 | s2 | | s2 m2 e2];
    cbn; try discriminate; try (destruct s1, s2; cbn; congruence).
  destruct s1, s2; try discriminate;
    destruct (Z.compare_spec e1 e2) as [-> | | ]; try discriminate;
    change (Pos.compare_cont Eq m1 m2) with (Pos.compare m1 m2);
    destruct (Pos.compare_spec m1 m2) as [-> | | ]; try discriminate;
    intros _; rewrite Z.sub_diag; reflexivity.
Qed.

(** How infinities and NaN pass through the operations of the discriminant. *)
Lemma div_zero_or_nan n d :
  SFzero_or_nan (Prim2SF d) = true -> SFinf_or_nan (Prim2SF (n / d)) = true.
Proof.
  to_spec. destruct (Prim2SF n), (Prim2SF d); cbn; congruence.
Qed.

Lemma mul_inf_l x y :
  SFinf_or_nan (Prim2SF x) = true -> SFinf_or_nan (Prim2SF (x * y)) = true.
Proof.
  to_spec. destruct (Prim2SF x), (Prim2SF y); cbn; congruence.
Qed.

Lemma sub_inf_r x y :
  SFinf_or_nan (Prim2SF y) = true -> SFinf_or_nan (Prim2SF (x - y)) = true.
Proof.
  to_spec. destruct (Prim2SF x) as [[] | [] | | ], (Prim2SF y) as [ | [] | | ];
    cbn; congruence.
Qed.

Lemma add_inf x y :
  SFinf_or_nan (Prim2SF x) = true -> SFinf_or_nan (Prim2SF y) = true ->
  SFinf_or_nan (Prim2SF (x + y)) = true.
Proof.
  to_spec. destruct (Prim2SF x) as [ | [] | | ], (Prim2SF y) as [ | [] | | ];
    cbn; congruence.
Qed.

Lemma sq_pinf x :
  SFinf_or_nan (Prim2SF x) = true -> SFpinf_or_nan (Prim2SF (x * x)) = true.
Proof.
  to_spec. destruct (Prim2SF x) as [ | [] | | ]; cbn; congruence.
Qed.

Lemma sq_unsigned x : SFunsigned_or_nan (Prim2SF (x * x)) = true.
Proof.
  to_spec. destruct (Prim2SF x) as [[] | [] | | s m e]; try reflexivity.
  unfold SFmul.
  pose proof (binary_round_aux_sign (xorb s s) (Z.pos (m * m)) (e + e) loc_Exact) as B.
  destruct (binary_round_aux prec emax (xorb s s) (Z.pos (m * m)) (e + e) loc_Exact);
    cbn; try reflexivity; subst; now destruct s.
Qed.

Lemma mul_unsigned_pinf x y :
  SFunsigned_or_nan (Prim2SF x) = true -> SFpinf_or_nan (Prim2SF y) = true ->
  SFpinf_or_nan (Prim2SF (x * y)) = true.
Proof.
  to_spec. destruct (Prim2SF x) as [[] | [] | | [] ? ?], (Prim2SF y) as [ | [] | | ];
    cbn; congruence.
Qed.

Lemma add_pinf_unsigned x y :
  SFpinf_or_nan (Prim2SF x) = true -> SFunsigned_or_nan (Prim2SF y) = true ->
  SFpinf_or_nan (Prim2SF (x + y)) = true.
Proof.
  to_spec. destruct (Prim2SF x) as [ | [] | | ], (Prim2SF y) as [[] | [] | | [] ? ?];
    cbn; congruence.
Qed.

Lemma sub_pinf_pinf x y :
  SFpinf_or_nan (Prim2SF x) = true -> SFpinf_or_nan (Prim2SF y) = true ->
  x - y = nan.
Proof.
  intros Hx Hy. apply is_nan_eq. revert Hx Hy. to_spec.
  destruct (Prim2SF x) as [ | [] | | ], (Prim2SF y) as [ | [] | | ];
    cbn; congruence.
Qed.

End Kinds.

Section Vertical.
Import Ellipse.
Local Open Scope float_scope.

(** A NaN square root makes every computed coordinate NaN, and
    [new Phaser.Point] makes the point (0, 0) of them. *)
Lemma candidates_nan_root (e : t float) (l : Line.t float) :
  PrimFloat.sqrt (discriminant_of e l) = nan ->
  candidates e l = (origin, origin).
Proof.
  intros E. unfold candidates. cbv zeta. num_ops.
  unfold discriminant_of, discriminant, intercept, slope in E. cbv zeta in E. num_ops.
  rewrite E.
  rewrite !nan_mul_r, nan_add_r, nan_sub_r, !nan_div, !nan_mul_r, !nan_add_l.
  reflexivity.
Qed.

(** For a vertical segment the slope is infinite or NaN, and the
    discriminant is [+Infinity - +Infinity] or already NaN. *)
Lemma candidates_vertical (e : t float) (l : Line.t float) :
  (Point.x (Line.start l) =? Point.x (Line.end_ l)) = true ->
  candidates e l = (origin, origin).
Proof.
  intros V. apply candidates_nan_root.
  unfold discriminant_of, discriminant. cbv zeta. num_ops.
  set (m := slope l). set (n := intercept l).
  assert (Hm : SFinf_or_nan (Prim2SF m) = true).
  { unfold m, slope. num_ops. apply div_zero_or_nan, eqb_sub_zero_or_nan, V. }
  assert (Hn : SFinf_or_nan (Prim2SF n) = true).
  { unfold n, intercept. num_ops. apply sub_inf_r, mul_inf_l, Hm. }
  assert (Hdel : SFinf_or_nan (Prim2SF (n + m * x e)) = true).
  { apply add_inf; [exact Hn | apply mul_inf_l, Hm]. }
  rewrite (@sub_pinf_pinf _ ((n + m * x e) * (n + m * x e))).
  - now rewrite nan_sub_l, nan_add_l.
  - apply add_pinf_unsigned; [ | apply sq_unsigned].
    apply mul_unsigned_pinf; [apply sq_unsigned | apply sq_pinf, Hm].
  - apply sq_pinf, Hdel.
Qed.

End Vertical.

(** Canonical representations: of two valid finite values, the one with the
    larger exponent has the larger magnitude. *)

Section Canonical.
Local Open Scope Z_scope.

Lemma digits2_pos_size (m : positive) : digits2_pos m = Pos.size m.
Proof. induction m as [m IH | m IH | ]; cbn; now rewrite ?IH. Qed.

Lemma valid_finite_bounds (s : bool) (m : positive) (e : Z) :
  valid_binary (S754_finite s m e) = true ->
  -1074 <= e /\ Zpos (Pos.size m) <= 53 /\ (-1074 < e -> Zpos (Pos.size m) = 53).
Proof.
  unfold SpecFloat.valid_binary, SpecFloat.bounded, SpecFloat.canonical_mantissa,
    SpecFloat.fexp, SpecFloat.emin.
  rewrite digits2_pos_size. unfold prec, emax.
  intros H. apply andb_true_iff in H. destruct H as [H _].
  apply Z.eqb_eq in H. lia.
Qed.

Lemma aligned_lt (m1 m2 : positive) (e1 e2 : Z) :
  Zpos (Pos.size m1) <= 53 -> Zpos (Pos.size m2) = 53 -> e1 < e2 ->
  Zpos m1 < Zpos m2 * 2 ^ (e2 - e1).
Proof.
  intros H1 H2 He.
  pose proof (Pos.size_gt m1) as G. pose proof (Pos.size_le m2) as L.
  apply Pos2Z.pos_lt_pos in G. apply Pos2Z.pos_le_pos in L.
  rewrite Pos2Z.inj_pow in G, L. rewrite H2 in L.
  assert (P1 : 2 ^ Zpos (Pos.size m1) <= 2 ^ 53) by (apply Z.pow_le_mono_r; lia).
  assert (P2 : 2 ^ 1 <= 2 ^ (e2 - e1)) by (apply Z.pow_le_mono_r; lia).
  change (2 ^ 1) with 2 in P2. rewrite Pos2Z.inj_xO in L. nia.
Qed.

Lemma shl_align_value (m : positive) (e ez : Z) :
  ez <= e -> Zpos (fst (shl_align m e ez)) = Zpos m * 2 ^ (e - ez).
Proof.
  intros H. unfold shl_align. destruct (ez - e) as [ | d | d] eqn:E.
  - replace (e - ez) with 0 by lia. cbn [fst]. lia.
  - lia.
  - cbn [fst]. replace (e - ez) with (Zpos d) by lia.
    change (Pos.iter xO m d) with (shift_pos d m).
    rewrite shift_pos_correct. change (Z.pow_pos 2 d) with (2 ^ Zpos d). lia.
Qed.

End Canonical.

Section Difference.
Local Open Scope Z_scope.

Lemma binary_normalize_nonneg (z e : Z) :
  0 <= z -> SFltb (binary_normalize prec emax z e false) (S754_zero false) = false.
Proof.
  intros Hz. destruct z as [ | p | p]; [reflexivity | | lia].
  unfold binary_normalize, binary_round.
  destruct (shl_align p e _) as [mz ez].
  pose proof (binary_round_aux_sign false (Zpos mz) ez loc_Exact) as B.
  destruct (binary_round_aux prec emax false (Zpos mz) ez loc_Exact);
    try reflexivity; subst; reflexivity.
Qed.

Lemma SFsub_not_negative (v x : spec_float) :
  valid_binary v = true -> valid_binary x = true ->
  SFltb v x = false ->
  SFltb (SF64sub v x) (S754_zero false) = false.
Proof.
  intros Vv Vx. unfold SFltb at 1.
  destruct v as [sv | sv | | sv mv ev], x as [sx | sx | | sx mx ex];
    try solve [repeat match goal with s : bool |- _ => destruct s end; cbn; congruence].
  destruct (valid_finite_bounds _ _ _ Vv) as (Lv & Sv & Nv).
  destruct (valid_finite_bounds _ _ _ Vx) as (Lx & Sx & Nx).
  intros H. unfold SF64sub, SFsub. cbv zeta.
  apply binary_normalize_nonneg.
  rewrite !shl_align_value by lia.
  assert (Pv : 0 < 2 ^ (ev - Z.min ev ex)) by (apply Z.pow_pos_nonneg; lia).
  assert (Px : 0 < 2 ^ (ex - Z.min ev ex)) by (apply Z.pow_pos_nonneg; lia).
  cbn [SFcompare] in H.
  change (Pos.compare_cont Eq mv mx) with (Pos.compare mv mx) in H.
  destruct sv, sx; cbn [cond_Zopp]; try discriminate H; [ | nia | ].
  - destruct (Z.compare_spec ev ex) as [E | E | E]; cbn in H; try discriminate H.
    + subst ex. rewrite Z.min_id, Z.sub_diag in *. 
      destruct (Pos.compare_spec mv mx); cbn in H; try discriminate H; subst; lia.
    + pose proof (@aligned_lt mv mx ev ex Sv (Nx ltac:(lia)) E) as A.
      rewrite Z.min_l in * by lia. rewrite Z.sub_diag. lia.
  - destruct (Z.compare_spec ev ex) as [E | E | E]; try discriminate H.
    + subst ex. rewrite Z.min_id, Z.sub_diag in *.
      destruct (Pos.compare_spec mv mx); try discriminate H; subst; lia.
    + pose proof (@aligned_lt mx mv ex ev Sx (Nv ltac:(lia)) E) as A.
      rewrite Z.min_r in * by lia. rewrite Z.sub_diag. lia.
Qed.

End Difference.

Section DifferenceFloat.
Local Open Scope float_scope.

(** When [v < x] is false the difference [v - x] is not below zero: it is
    zero, positive or NaN. *)
Lemma sub_not_negative (v x : float) : (v <? x) = false -> (v - x <? 0) = false.
Proof.
  rewrite !ltb_spec, sub_spec. change (Prim2SF 0) with (S754_zero false).
  apply SFsub_not_negative; apply Prim2SF_valid.
Qed.

End DifferenceFloat.

Section MoreFloatFacts.
Local Open Scope float_scope.

Lemma not_number_nan (f : float) : is_number f = false -> f = nan.
Proof.
  unfold is_number. rewrite eqb_spec. unfold SFeqb. intros H.
  apply is_nan_eq. destruct (Prim2SF f) as [s | s | | s m e] eqn:E; try reflexivity;
    rewrite SFcompare_refl in H by discriminate; discriminate H.
Qed.

Lemma eqb_zero_cases (f : float) : (f =? 0) = true -> f = 0 \/ f = -0.
Proof.
  rewrite eqb_spec. change (Prim2SF 0) with (S754_zero false). unfold SFeqb.
  destruct (Prim2SF f) as [[] | [] | | [] m e] eqn:E; cbn; try discriminate; intros _;
    apply prim_of_spec in E; auto.
Qed.

Lemma eqb_leb (a b : float) : (a =? b) = true -> (a <=? b) = true.
Proof.
  rewrite eqb_spec, leb_spec. unfold SFeqb, SFleb.
  destruct (SFcompare (Prim2SF a) (Prim2SF b)) as [[] | ]; congruence.
Qed.

Lemma neg_zero_not_zero : (-0)%float <> 0%float.
Proof.
  intros E. apply (f_equal (fun z => 1 / z <? 0)) in E. vm_compute in E. discriminate E.
Qed.

End MoreFloatFacts.

(** ** Construction and copies *)

Section Construction.
Import Ellipse.
Local Open Scope float_scope.

Lemma number_truthy_spec (n : float) :
  number_truthy n = negb (n =? 0) && is_number n.
Proof. reflexivity. Qed.

Lemma or_zero_number (a : option float) : is_number (or_zero a) = true.
Proof.
  destruct a as [n | ]; [ | reflexivity]. unfold or_zero. rewrite number_truthy_spec.
  destruct (n =? 0); [reflexivity | ]. cbn [negb andb].
  destruct (is_number n) eqn:E; [exact E | reflexivity].
Qed.

Lemma or_zero_not_neg_zero (a : option float) : or_zero a <> -0.
Proof.
  destruct a as [n | ]; [ | intros E; symmetry in E; exact (neg_zero_not_zero E)].
  unfold or_zero. rewrite number_truthy_spec.
  destruct (n =? 0) eqn:Z; [intros E; symmetry in E; exact (neg_zero_not_zero E) | ].
  cbn [negb andb]. destruct (is_number n);
    [ | intros E; symmetry in E; exact (neg_zero_not_zero E)].
  intros ->. vm_compute in Z. discriminate Z.
Qed.

Lemma or_zero_value (n : float) : is_number n = true -> (or_zero (Some n) =? n) = true.
Proof.
  intros Hn. unfold or_zero. rewrite number_truthy_spec, Hn.
  destruct (n =? 0) eqn:Z; cbn [negb andb]; [ | exact Hn].
  destruct (eqb_zero_cases Z) as [-> | ->]; reflexivity.
Qed.

Lemma or_zero_fixed (f : float) :
  or_zero (Some f) = f <-> is_number f = true /\ f <> -0.
Proof.
  split.
  - intros E. rewrite <- E. split; [apply or_zero_number | apply or_zero_not_neg_zero].
  - intros [Hn Hz]. unfold or_zero. rewrite number_truthy_spec, Hn.
    destruct (f =? 0) eqn:Z; cbn [negb andb]; [ | reflexivity].
    destruct (eqb_zero_cases Z) as [-> | ->]; [reflexivity | now elim Hz].
Qed.

End Construction.

Section ConstructionTheorems.
Import Ellipse.
Local Open Scope float_scope.

(** The constructor stores, for each argument, a number that is neither NaN
    nor [-0]: a number given is kept (up to [===], [-0] becoming [0]), and a
    missing or NaN argument becomes [0]. *)
Theorem new_normalises (a b c d : option float) :
  let stored := fun (arg : option float) (f : float) =>
    is_number f = true /\ f <> -0 /\
    (forall n, arg = Some n -> is_number n = true -> (f =? n) = true) /\
    (arg = None \/ arg = Some nan -> f = 0) in
  stored a (x (new a b c d)) /\ stored b (y (new a b c d)) /\
  stored c (width (new a b c d)) /\ stored d (height (new a b c d)).
Proof.
  assert (S : forall arg : option float,
             is_number (or_zero arg) = true /\ or_zero arg <> -0 /\
             (forall n, arg = Some n -> is_number n = true -> (or_zero arg =? n) = true) /\
             (arg = None \/ arg = Some nan -> or_zero arg = 0)).
  { intros arg. split; [apply or_zero_number | ].
    split; [apply or_zero_not_neg_zero | ]. split.
    - intros n -> Hn. exact (or_zero_value Hn).
    - intros [-> | ->]; reflexivity. }
  cbv zeta. unfold new. cbn [x y width height].
  split; [apply S | split; [apply S | split; apply S]].
Qed.

(** [clone(output)], [copyFrom] and [copyTo] copy the four fields exactly,
    NaN and [-0] included; [clone()] goes through the constructor, so it
    returns an equal ellipse exactly when no field is NaN or [-0]. *)
Theorem clone_fidelity (e o : t float) :
  clone e (Some o) = e /\ copyFrom o e = e /\ copyTo e o = e /\
  (clone e None = e <->
   (is_number (x e) = true /\ x e <> -0) /\ (is_number (y e) = true /\ y e <> -0) /\
   (is_number (width e) = true /\ width e <> -0) /\
   (is_number (height e) = true /\ height e <> -0)).
Proof.
  destruct e as [ex ey w h].
  unfold clone, copyFrom, copyTo, setTo, new. cbn [x y width height].
  repeat (split; [reflexivity | ]).
  split.
  - intros E. injection E as E1 E2 E3 E4.
    repeat split; first [apply (proj1 (or_zero_fixed _) E1) | apply (proj1 (or_zero_fixed _) E2)
                        | apply (proj1 (or_zero_fixed _) E3) | apply (proj1 (or_zero_fixed _) E4)].
  - intros (H1 & H2 & H3 & H4).
    now rewrite (proj2 (or_zero_fixed ex) H1), (proj2 (or_zero_fixed ey) H2),
      (proj2 (or_zero_fixed w) H3), (proj2 (or_zero_fixed h) H4).
Qed.

End ConstructionTheorems.

(** ** Setters, emptiness and containment *)

Section Frames.
Import Ellipse.
Local Open Scope float_scope.

(** [left] and [top] move the corner and leave the size alone; [right] and
    [bottom] leave the corner alone and never store a negative size: the new
    width (height) is zero, positive or NaN. *)
Theorem setters_frame (e : t float) (v : float) :
  (x (set_left e v) = v /\ y (set_left e v) = y e /\
   width (set_left e v) = width e /\ height (set_left e v) = height e) /\
  (x (set_top e v) = x e /\ y (set_top e v) = v /\
   width (set_top e v) = width e /\ height (set_top e v) = height e) /\
  (x (set_right e v) = x e /\ y (set_right e v) = y e /\
   height (set_right e v) = height e /\ (width (set_right e v) <? 0) = false) /\
  (x (set_bottom e v) = x e /\ y (set_bottom e v) = y e /\
   width (set_bottom e v) = width e /\ (height (set_bottom e v) <? 0) = false).
Proof.
  split; [repeat split | ]. split; [repeat split | ].
  unfold set_right, set_bottom. num_ops. split.
  - destruct (v <? x e) eqn:L; cbn [x y width height]; repeat split.
    exact (sub_not_negative L).
  - destruct (v <? y e) eqn:L; cbn [x y width height]; repeat split.
    exact (sub_not_negative L).
Qed.

(** An empty ellipse contains no point. *)
Theorem empty_contains_nothing (e : t float) (px py : float) :
  empty e = true -> contains e px py = false.
Proof.
  unfold empty, contains, contains_static. num_ops. intros H.
  apply orb_true_iff in H. destruct H as [H | H]; rewrite (eqb_leb H);
    [reflexivity | now rewrite orb_true_r].
Qed.

Lemma empty_contains_nothing_witness :
  empty flat_ellipse = true /\ contains flat_ellipse 3 7.5 = false.
Proof.
  split; [reflexivity | apply empty_contains_nothing; reflexivity].
Defined.

Lemma leb_false_number_ltb (w : float) :
  (w <=? 0) = false -> is_number w = true -> (0 <? w) = true.
Proof.
  unfold is_number. rewrite leb_spec, ltb_spec, eqb_spec.
  change (Prim2SF 0) with (S754_zero false). unfold SFleb, SFltb, SFeqb.
  rewrite (SFcompare_antisym (Prim2SF w) (S754_zero false)).
  destruct (Prim2SF w) as [[] | [] | | [] m e]; cbn; congruence.
Qed.

(** [contains] accepts a point only when the two coordinates and the four
    fields are numbers (none is NaN) and the width and height are above 0. *)
Theorem contains_needs_numbers (e : t float) (px py : float) :
  contains e px py = true ->
  is_number px = true /\ is_number py = true /\
  is_number (x e) = true /\ is_number (y e) = true /\
  (0 <? width e) = true /\ (0 <? height e) = true.
Proof.
  destruct e as [ex ey w h]. unfold contains, contains_static.
  cbn [x y width height]. num_ops.
  destruct (w <=? 0) eqn:Lw; [discriminate | ].
  destruct (h <=? 0) eqn:Lh; [discriminate | ]. cbn [orb].
  intros H.
  assert (N : forall f, (is_number f = false -> False) -> is_number f = true).
  { intros f Hf. destruct (is_number f); [reflexivity | now elim Hf]. }
  assert (Nw : is_number w = true).
  { apply N. intros E. apply not_number_nan in E. subst w.
    rewrite nan_div_r, nan_sub_l, nan_mul_l, nan_add_l in H. discriminate H. }
  assert (Nh : is_number h = true).
  { apply N. intros E. apply not_number_nan in E. subst h.
    rewrite nan_div_r, nan_sub_l, nan_mul_l, nan_add_r in H. discriminate H. }
  repeat split; try (apply leb_false_number_ltb; assumption);
    apply N; intros E; apply not_number_nan in E; subst;
    rewrite ?nan_sub_l, ?nan_sub_r, ?nan_div in H;
    rewrite ?nan_sub_l, ?nan_mul_l, ?nan_add_l, ?nan_add_r in H; discriminate H.
Qed.

Lemma contains_needs_numbers_witness :
  contains ellipse10 5 5 = true /\
  (is_number 5 = true /\ is_number 5 = true /\
   is_number (x ellipse10) = true /\ is_number (y ellipse10) = true /\
   (0 <? width ellipse10) = true /\ (0 <? height ellipse10) = true).
Proof.
  split; [reflexivity | apply (@contains_needs_numbers ellipse10 5 5); reflexivity].
Defined.

End Frames.

(** ** Lines whose roots are not numbers *)

Section NoIntersection.
Import Ellipse.
Local Open Scope float_scope.

Lemma sqrt_negative_nan (d : float) : (d <? 0) = true -> PrimFloat.sqrt d = nan.
Proof.
  rewrite ltb_spec. change (Prim2SF 0) with (S754_zero false). unfold SFltb.
  intros H. apply is_nan_eq. rewrite sqrt_spec. unfold SF64sqrt, SFsqrt.
  destruct (Prim2SF d) as [[] | [] | | [] m e]; cbn in H; try discriminate H; reflexivity.
Qed.

Lemma intersectsLine_origin_candidates
  (pointOnSegment : Line.t float -> float -> float -> float -> bool)
  (e : t float) (l : Line.t float) (v : JSValue float) :
  candidates e l = (origin, origin) ->
  intersectsLine pointOnSegment e l v = origin_answer (pointOnSegment l 0 0 0.01) v.
Proof.
  intros C. unfold intersectsLine, origin_answer. rewrite C.
  cbn [Point.x Point.y origin]. num_ops.
  now destruct (pointOnSegment l 0 0 0.01).
Qed.

(** For a vertical segment (the two endpoints have the same x) the computed
    roots are NaN whatever the ellipse is, [new Phaser.Point] stores them as
    0, and both candidates of [intersectsLine] are the point (0, 0): the
    answer is the one of the segment-membership test at (0, 0), two points
    (0, 0) or true when the test accepts the origin, the empty array or
    false when it does not. *)
Theorem intersectsLine_vertical (e : t float) (l : Line.t float) :
  (Point.x (Line.start l) =? Point.x (Line.end_ l)) = true ->
  candidates e l = (origin, origin) /\
  (forall pointOnSegment v,
     intersectsLine pointOnSegment e l v = origin_answer (pointOnSegment l 0 0 0.01) v).
Proof.
  intros V. pose proof (@candidates_vertical e l V) as C.
  split; [exact C | ].
  intros pos v. now apply intersectsLine_origin_candidates.
Qed.

Lemma intersectsLine_vertical_witness :
  (intersectsLine Line.pointOnSegment ellipse10 vsegment (JSBool true)
   = Points [origin; origin] /\
   intersectsLine Line.pointOnSegment ellipse10 vsegment JSUndefined = Flag true) /\
  (intersectsLine Line.pointOnSegment far_ellipse far_vsegment (JSBool true) = Points [] /\
   intersectsLine Line.pointOnSegment far_ellipse far_vsegment JSUndefined = Flag false).
Proof.
  split.
  - destruct (@intersectsLine_vertical ellipse10 vsegment) as (_ & H); [reflexivity | ].
    split; [exact (H Line.pointOnSegment (JSBool true))
           | exact (H Line.pointOnSegment JSUndefined)].
  - destruct (@intersectsLine_vertical far_ellipse far_vsegment) as (_ & H); [reflexivity | ].
    split; [exact (H Line.pointOnSegment (JSBool true))
           | exact (H Line.pointOnSegment JSUndefined)].
Defined.

(** When the discriminant computed by [intersectsLine] is negative its
    square root is NaN, [new Phaser.Point] stores the NaN roots as 0, and
    both candidates are the point (0, 0): the answer is the one of the
    segment-membership test at (0, 0), two points (0, 0) or true when the
    test accepts the origin, the empty array or false when it does not. *)
Theorem intersectsLine_negative_discriminant (e : t float) (l : Line.t float) :
  (discriminant_of e l <? 0) = true ->
  candidates e l = (origin, origin) /\
  (forall pointOnSegment v,
     intersectsLine pointOnSegment e l v = origin_answer (pointOnSegment l 0 0 0.01) v).
Proof.
  intros D. pose proof (@candidates_nan_root e l (sqrt_negative_nan D)) as C.
  split; [exact C | ].
  intros pos v. now apply intersectsLine_origin_candidates.
Qed.

Lemma intersectsLine_negative_discriminant_witness :
  (intersectsLine Line.pointOnSegment far_ellipse hsegment (JSBool true)
   = Points [origin; origin] /\
   intersectsLine Line.pointOnSegment far_ellipse hsegment (JSBool false) = Flag true) /\
  (intersectsLine Line.pointOnSegment ellipse10 high_segment (JSBool true) = Points [] /\
   intersectsLine Line.pointOnSegment ellipse10 high_segment (JSBool false) = Flag false).
Proof.
  split.
  - destruct (@intersectsLine_negative_discriminant far_ellipse hsegment) as (_ & H);
      [reflexivity | ].
    split; [exact (H Line.pointOnSegment (JSBool true))
           | exact (H Line.pointOnSegment (JSBool false))].
  - destruct (@intersectsLine_negative_discriminant ellipse10 high_segment) as (_ & H);
      [reflexivity | ].
    split; [exact (H Line.pointOnSegment (JSBool true))
           | exact (H Line.pointOnSegment (JSBool false))].
Defined.

(** The two modes of [intersectsLine] agree for every value of
    [returnPoints]: a truthy value (true, a non-zero number, a non-empty
    string) gives the array, a falsy one (false, 0, NaN, the empty string,
    null, undefined) gives the boolean, and the boolean is true exactly when
    the array is not empty. *)
Theorem intersectsLine_modes_agree
  (pointOnSegment : Line.t float -> float -> float -> float -> bool)
  (e : t float) (l : Line.t float) (v w : JSValue float) :
  truthy v = true -> truthy w = false ->
  exists ps,
    intersectsLine pointOnSegment e l v = Points ps /\
    intersectsLine pointOnSegment e l w
    = Flag (match ps with [] => false | _ :: _ => true end).
Proof.
  intros Tv Tw. unfold intersectsLine. rewrite Tv, Tw.
  destruct (candidates e l) as [p0 p1].
  destruct (pointOnSegment l (Point.x p0) (Point.y p0) num_0_01),
           (pointOnSegment l (Point.x p1) (Point.y p1) num_0_01);
    cbn [andb]; eexists; split; reflexivity.
Qed.

Lemma intersectsLine_modes_agree_witness :
  truthy (@JSString float "yes") = true /\ truthy (JSNumber 0) = false /\
  exists ps,
    intersectsLine Line.pointOnSegment ellipse10 hsegment (JSString "yes") = Points ps /\
    intersectsLine Line.pointOnSegment ellipse10 hsegment (JSNumber 0)
    = Flag (match ps with [] => false | _ :: _ => true end).
Proof.
  split; [reflexivity | ]. split; [reflexivity | ].
  apply (@intersectsLine_modes_agree Line.pointOnSegment ellipse10 hsegment
           (JSString "yes") (JSNumber 0)); reflexivity.
Defined.

End NoIntersection.

(** ** Where the ellipse is, in exact arithmetic *)

Section Geometry.
Import Ellipse.
Local Open Scope R_scope.

(** In exact arithmetic, for width > 0 and height > 0, [contains] accepts
    exactly the points strictly inside the ellipse inscribed in the framing
    rectangle: centre (x + width/2, y + height/2), semi-axes width/2 and
    height/2. *)
Theorem contains_inscribed_exact (e : t R) (px py : R) :
  0 < width e -> 0 < height e ->
  (contains e px py = true <->
   ellipse_form (x e + width e / 2) (y e + height e / 2)
     (width e / 2) (height e / 2) px py < 1).
Proof.
  destruct e as [ex ey w h]. cbn [x y width height]. intros Hw Hh.
  unfold contains, contains_static, ellipse_form. cbn [x y width height]. num_ops.
  unfold Rleb, Rltb.
  destruct (Rle_dec w 0) as [L | _]; [lra | ].
  destruct (Rle_dec h 0) as [L | _]; [lra | ]. cbn [orb].
  set (nx := (px - ex) / w - 1 / 2). set (ny := (py - ey) / h - 1 / 2).
  replace ((px - (ex + w / 2)) / (w / 2)) with (2 * nx) by (unfold nx; field; lra).
  replace ((py - (ey + h / 2)) / (h / 2)) with (2 * ny) by (unfold ny; field; lra).
  destruct (Rlt_dec (nx * nx + ny * ny) (1 / 4)) as [L | L]; split; intros H;
    try reflexivity; try discriminate H; nra.
Qed.

Lemma contains_inscribed_witness :
  contains ellipse10_exact 5 5 = true.
Proof.
  apply (@contains_inscribed_exact ellipse10_exact 5 5); cbn; try lra.
  unfold ellipse_form. replace ((5 - (0 + 10 / 2)) / (10 / 2)) with 0 by field. lra.
Defined.

(** In exact arithmetic, for width > 0 and height > 0, a non-vertical line
    and a non-negative discriminant, the two candidates of [intersectsLine]
    lie on the ellipse centred on (x, y) with semi-axes width/2 and height/2,
    and on the line [y = m·x + n] that passes through the two endpoints. *)
Theorem candidates_on_centred_ellipse_exact (e : t R) (l : Line.t R) (p : Point.t R) :
  0 < width e -> 0 < height e ->
  Point.x (Line.start l) <> Point.x (Line.end_ l) ->
  0 <= discriminant_of e l ->
  p = fst (candidates e l) \/ p = snd (candidates e l) ->
  ellipse_form (x e) (y e) (width e / 2) (height e / 2) (Point.x p) (Point.y p) = 1 /\
  Point.y p = slope l * Point.x p + intercept l /\
  Point.y (Line.start l) = slope l * Point.x (Line.start l) + intercept l /\
  Point.y (Line.end_ l) = slope l * Point.x (Line.end_ l) + intercept l.
Proof.
  intros Hw Hh Hv Hd Hp.
  destruct (@candidates_on_ellipse_exact e l p Hw Hh Hd Hp) as [E Hy].
  split; [ | split; [exact Hy | ]].
  - unfold ellipse_form.
    set (a := width e / 2) in *. set (b := height e / 2) in *.
    assert (Ha : 0 < a) by (unfold a; lra).
    assert (Hb : 0 < b) by (unfold b; lra).
    assert (Hab : 0 < a * a * (b * b)) by (apply Rmult_lt_0_compat; nra).
    apply (Rmult_eq_reg_l (a * a * (b * b))); [ | lra].
    rewrite Rmult_1_r. etransitivity; [ | exact E]. field. split; lra.
  - unfold intercept, slope. num_ops. split; field; lra.
Qed.

Lemma candidates_on_centred_ellipse_witness :
  ellipse_form 0 0 (10 / 2) (10 / 2)
    (Point.x (fst (candidates ellipse10_exact hsegment_exact)))
    (Point.y (fst (candidates ellipse10_exact hsegment_exact))) = 1.
Proof.
  apply (@candidates_on_centred_ellipse_exact ellipse10_exact hsegment_exact
           (fst (candidates ellipse10_exact hsegment_exact))).
  - cbn; lra.
  - cbn; lra.
  - cbn; lra.
  - unfold discriminant_of, discriminant, intercept, slope. cbn. lra.
  - now left.
Defined.

(** In exact arithmetic, for width > 0 and height > 0 and a radius draw
    [u2] in [0, 1), the point that [random] returns lies strictly inside the
    ellipse centred on (x, y) with semi-axes width/2 and height/2, at the
    level [u2] of its implicit equation. *)
Theorem random_inside_centred_exact (e : t R) (out : option (Point.t R)) (g : Rng R) :
  0 < width e -> 0 < height e ->
  0 <= draws g (S (cursor g)) < 1 ->
  let p := fst (random real_math e out g) in
  ellipse_form (x e) (y e) (width e / 2) (height e / 2) (Point.x p) (Point.y p)
  = draws g (S (cursor g)) /\
  ellipse_form (x e) (y e) (width e / 2) (height e / 2) (Point.x p) (Point.y p) < 1.
Proof.
  intros Hw Hh Hr. cbv zeta.
  assert (E : ellipse_form (x e) (y e) (width e / 2) (height e / 2)
                (Point.x (fst (random real_math e out g)))
                (Point.y (fst (random real_math e out g)))
              = draws g (S (cursor g))).
  { unfold random, Math_random. cbn [draws cursor fst snd].
    cbv [Point.set_x Point.set_y Point.x Point.y real_math Math_cos Math_sin Math_PI].
    num_ops. unfold ellipse_form.
    set (r := draws g (S (cursor g))) in *. set (t := draws g (cursor g) * PI * 2).
    replace ((x e + sqrt r * cos t * width e / 2 - x e) / (width e / 2))
      with (sqrt r * cos t) by (field; lra).
    replace ((y e + sqrt r * sin t * height e / 2 - y e) / (height e / 2))
      with (sqrt r * sin t) by (field; lra).
    pose proof (sin2_cos2 t) as T. unfold Rsqr in T.
    pose proof (sqrt_sqrt r (proj1 Hr)) as S.
    replace (sqrt r * cos t * (sqrt r * cos t) + sqrt r * sin t * (sqrt r * sin t))
      with (sqrt r * sqrt r * (sin t * sin t + cos t * cos t)) by ring.
    rewrite S, T. ring. }
  split; [exact E | rewrite E; lra].
Qed.

Lemma random_inside_centred_witness :
  ellipse_form 0 0 (10 / 2) (10 / 2)
    (Point.x (fst (random real_math ellipse10_exact None quarter_draws)))
    (Point.y (fst (random real_math ellipse10_exact None quarter_draws))) < 1.
Proof.
  apply (@random_inside_centred_exact ellipse10_exact None quarter_draws).
  - cbn; lra.
  - cbn; lra.
  - cbn; lra.
Defined.

End Geometry.

(** ** Values stored through a constructor *)

Section Stored.
Import Ellipse.
Local Open Scope float_scope.

Lemma or_zero_nan (v : float) : is_number v = false -> or_zero (Some v) = 0.
Proof. intros E. apply not_number_nan in E. subst v. reflexivity. Qed.

(** What a field built with [v || 0] holds: a value [===] to [v] when [v] is
    a number, and 0 when it is NaN. *)
Lemma or_zero_stored (v : float) :
  (is_number v = true -> (or_zero (Some v) =? v) = true) /\
  (is_number v = false -> or_zero (Some v) = 0).
Proof. split; [apply or_zero_value | apply or_zero_nan]. Qed.

(** C8, as stated, fails on the ellipse (Infinity, 0, Infinity, 1):
    [x - width] is [Infinity - Infinity], NaN, and the rectangle's [x] is 0. *)
Lemma getBounds_counterexample :
  is_number (x infinite_ellipse - width infinite_ellipse) = false /\
  Rectangle.x (getBounds infinite_ellipse) = 0 /\
  (Rectangle.x (getBounds infinite_ellipse)
   =? x infinite_ellipse - width infinite_ellipse) = false.
Proof. repeat split; vm_compute; reflexivity. Qed.

(** C8 (amended): [getBounds] returns
    [new Phaser.Rectangle(x - width, y - height, width, height)]: each field
    of the rectangle is [===] to the corresponding one of (x - width,
    y - height, width, height) whenever that value is a number, and is 0 when
    it is NaN.  For the ellipse (0, 0, 10, 10) the rectangle is
    (-10, -10, 10, 10), not the rectangle (x - width/2, y - height/2, width,
    height) that frames the ellipse. *)
Theorem getBounds_spec :
  (forall e : t float,
     let stored := fun (v f : float) =>
       (is_number v = true -> (f =? v) = true) /\ (is_number v = false -> f = 0) in
     getBounds e
     = Rectangle.new (Some (x e - width e)) (Some (y e - height e))
         (Some (width e)) (Some (height e)) /\
     stored (x e - width e) (Rectangle.x (getBounds e)) /\
     stored (y e - height e) (Rectangle.y (getBounds e)) /\
     stored (width e) (Rectangle.width (getBounds e)) /\
     stored (height e) (Rectangle.height (getBounds e))) /\
  getBounds ellipse10 = Rectangle.mk (-10) (-10) 10 10 /\
  getBounds ellipse10 <>
    Rectangle.mk (x ellipse10 - width ellipse10 / 2) (y ellipse10 - height ellipse10 / 2)
      (width ellipse10) (height ellipse10).
Proof.
  split; [ | split].
  - intros e. cbv zeta. split; [reflexivity | ].
    unfold getBounds, Rectangle.new.
    cbn [Rectangle.x Rectangle.y Rectangle.width Rectangle.height]. num_ops.
    split; [apply or_zero_stored | ]. split; [apply or_zero_stored | ].
    split; apply or_zero_stored.
  - vm_compute. reflexivity.
  - intros E. apply (f_equal (fun r => Rectangle.x r =? -10)) in E.
    vm_compute in E. discriminate E.
Qed.



End Stored.

(** ** Rounding to nearest is monotone *)

Section PowersOfTwo.
Local Open Scope R_scope.


Lemma p2_add (a b : Z) : p2 (a + b) = p2 a * p2 b.
Proof. apply powerRZ_add. lra. Qed.


Lemma p2_1 : p2 1 = 2.
Proof. exact (powerRZ_1 2). Qed.

Lemma p2_succ (e : Z) : p2 (e + 1) = 2 * p2 e.
Proof. rewrite p2_add, p2_1. lra. Qed.

Lemma p2_pred (e : Z) : p2 e = 2 * p2 (e - 1).
Proof. rewrite <- p2_succ. f_equal. lia. Qed.







End PowersOfTwo.

Section Shifts.
Local Open Scope R_scope.







End Shifts.

Section Rounding.
Local Open Scope R_scope.









End Rounding.

Section RoundAux.
Local Open Scope R_scope.




End RoundAux.

Section Monotone.
Local Open Scope R_scope.







End Monotone.

Section Ordering.











End Ordering.

Section AddCore.
Local Open Scope R_scope.











End AddCore.

Section DivCore.
Local Open Scope R_scope.









End DivCore.

Section RootOrderSpec.
Local Open Scope Z_scope.


Lemma SFunsigned_notneg (s : spec_float) : SFunsigned_or_nan s = true -> SFnotneg s = true.
Proof. destruct s as [[] | [] | | [] ? ?]; cbn; congruence. Qed.











End RootOrderSpec.

Section RootOrder.
Import Ellipse.
Local Open Scope float_scope.







End RootOrder.

(** ** The order of the two candidates *)

Section CandidateOrder.
Import Ellipse.
Local Open Scope float_scope.




End CandidateOrder.
